(** * jose: AES-GCM key wrapping, sign/verify key import and the error classes

    A shallow embedding of three source files of the library:
    - [util/errors]: the [JOSEError] class and its fifteen subclasses;
    - [runtime/aesgcmkw]: [wrap] and [unwrap];
    - [runtime/get_sign_verify_key]: [getCryptoKey].

    JavaScript strings are modelled as [string], one character per code
    unit (the identifiers, codes and messages of these files are ASCII),
    [Uint8Array] values as [list byte], thrown values and promise
    rejections as explicit result types, and the calls into the
    cryptographic provider as computations over an explicit provider
    state.  The [stack] of an error object is not modelled. *)

From Stdlib Require Import String Ascii List ZArith Lia Bool Strings.Byte.
From ExtLib Require Import Structures.Monad.
Import ListNotations.
Import MonadNotation.

Local Open Scope string_scope.
Local Open Scope monad_scope.

Set Implicit Arguments.

(** ** JavaScript string methods used by the sources *)

Module JSString.

(** [s.substr(start, length)]: [start] counts from the end when it is
    negative, an omitted [length] means "to the end", and both are
    clamped to the string. *)
Definition substr (s : string) (start : Z) (length : option Z) : string :=
  let size := Z.of_nat (String.length s) in
  let intStart :=
    if (start <? 0)%Z then Z.max (size + start) 0 else Z.min start size in
  let intLength :=
    match length with
    | None => size
    | Some l => Z.min (Z.max l 0) size
    end in
  let intEnd := Z.min (intStart + intLength) size in
  String.substring (Z.to_nat intStart) (Z.to_nat (intEnd - intStart)) s.

(** [s.startsWith(searchString)] *)
Definition startsWith (s searchString : string) : bool :=
  String.prefix searchString s.

End JSString.

(** ** Normal and abrupt completion *)

(** What evaluating a call produces: a value, or a thrown exception. *)
Inductive Completion (E A : Type) : Type :=
| Normal (a : A)
| Throw (e : E).

Arguments Normal {E A} a.
Arguments Throw {E A} e.

(** ** Asynchronous computations

    An [async] function, or a provider call that returns a promise, is a
    computation over the provider's state [W] (its entropy pool, its key
    store).  The promise settles either fulfilled with a value or rejected
    with a reason; awaiting a rejected promise rejects the caller. *)

Definition Async (W E A : Type) : Type := W -> Completion E A * W.

Definition resolve {W E A} (a : A) : Async W E A := fun w => (Normal a, w).

Definition reject {W E A} (e : E) : Async W E A := fun w => (Throw e, w).

Definition await {W E A B} (p : Async W E A) (k : A -> Async W E B)
  : Async W E B :=
  fun w =>
    match p w with
    | (Normal a, w') => k a w'
    | (Throw e, w') => (Throw e, w')
    end.

#[export] Instance Monad_Async {W E} : Monad (Async W E) :=
  {| ret := fun _ a => resolve a;
     bind := fun _ _ p k => await p k |}.

(** The settled outcome of a computation started in state [w]. *)
Definition settle {W E A} (p : Async W E A) (w : W) : Completion E A :=
  fst (p w).

(** ** Async iteration *)

(** An [AsyncIterableIterator] over a finite sequence: [next] hands out the
    pending elements one by one and then reports that it is done. *)
Record AsyncIterableIterator (A : Type) : Type :=
  { pending : list A }.

Inductive IteratorResult (A : Type) : Type :=
| IterValue (value : A)
| IterDone.

Arguments IterValue {A} value.
Arguments IterDone {A}.

Definition next {A} (it : AsyncIterableIterator A)
  : IteratorResult A * AsyncIterableIterator A :=
  match pending it with
  | [] => (IterDone, it)
  | x :: rest => (IterValue x, {| pending := rest |})
  end.

(** [for await (const x of it) acc.push(x)], bounded by [fuel] calls to
    [next]; [None] when the fuel runs out before the iterator is done. *)
Fixpoint for_await {A} (fuel : nat) (it : AsyncIterableIterator A)
  : option (list A) :=
  match fuel with
  | O => None
  | S fuel' =>
      match next it with
      | (IterDone, _) => Some []
      | (IterValue x, it') =>
          match for_await fuel' it' with
          | Some xs => Some (x :: xs)
          | None => None
          end
      end
  end.

(** ** util/errors *)

Module Errors.

(** The sixteen classes of the file. *)
Inductive ErrorClass : Type :=
| JOSEError
| JWTClaimValidationFailed
| JWTExpired
| JOSEAlgNotAllowed
| JOSENotSupported
| JWEDecryptionFailed
| JWEDecompressionFailed
| JWEInvalid
| JWSInvalid
| JWTInvalid
| JWKInvalid
| JWKSInvalid
| JWKSNoMatchingKey
| JWKSMultipleMatchingKeys
| JWKSTimeout
| JWSSignatureVerificationFailed.

Definition classes : list ErrorClass :=
  [ JOSEError; JWTClaimValidationFailed; JWTExpired; JOSEAlgNotAllowed;
    JOSENotSupported; JWEDecryptionFailed; JWEDecompressionFailed;
    JWEInvalid; JWSInvalid; JWTInvalid; JWKInvalid; JWKSInvalid;
    JWKSNoMatchingKey; JWKSMultipleMatchingKeys; JWKSTimeout;
    JWSSignatureVerificationFailed ].

(** [C.name] of a class constructor. *)
Definition class_name (c : ErrorClass) : string :=
  match c with
  | JOSEError => "JOSEError"
  | JWTClaimValidationFailed => "JWTClaimValidationFailed"
  | JWTExpired => "JWTExpired"
  | JOSEAlgNotAllowed => "JOSEAlgNotAllowed"
  | JOSENotSupported => "JOSENotSupported"
  | JWEDecryptionFailed => "JWEDecryptionFailed"
  | JWEDecompressionFailed => "JWEDecompressionFailed"
  | JWEInvalid => "JWEInvalid"
  | JWSInvalid => "JWSInvalid"
  | JWTInvalid => "JWTInvalid"
  | JWKInvalid => "JWKInvalid"
  | JWKSInvalid => "JWKSInvalid"
  | JWKSNoMatchingKey => "JWKSNoMatchingKey"
  | JWKSMultipleMatchingKeys => "JWKSMultipleMatchingKeys"
  | JWKSTimeout => "JWKSTimeout"
  | JWSSignatureVerificationFailed => "JWSSignatureVerificationFailed"
  end.

(** [static get code()] of each class. *)
Definition static_code (c : ErrorClass) : string :=
  match c with
  | JOSEError => "ERR_JOSE_GENERIC"
  | JWTClaimValidationFailed => "ERR_JWT_CLAIM_VALIDATION_FAILED"
  | JWTExpired => "ERR_JWT_EXPIRED"
  | JOSEAlgNotAllowed => "ERR_JOSE_ALG_NOT_ALLOWED"
  | JOSENotSupported => "ERR_JOSE_NOT_SUPPORTED"
  | JWEDecryptionFailed => "ERR_JWE_DECRYPTION_FAILED"
  | JWEDecompressionFailed => "ERR_JWE_DECOMPRESSION_FAILED"
  | JWEInvalid => "ERR_JWE_INVALID"
  | JWSInvalid => "ERR_JWS_INVALID"
  | JWTInvalid => "ERR_JWT_INVALID"
  | JWKInvalid => "ERR_JWK_INVALID"
  | JWKSInvalid => "ERR_JWKS_INVALID"
  | JWKSNoMatchingKey => "ERR_JWKS_NO_MATCHING_KEY"
  | JWKSMultipleMatchingKeys => "ERR_JWKS_MULTIPLE_MATCHING_KEYS"
  | JWKSTimeout => "ERR_JWKS_TIMEOUT"
  | JWSSignatureVerificationFailed => "ERR_JWS_SIGNATURE_VERIFICATION_FAILED"
  end.

Section Instances.

(** [KeyLike] of [types.d], the element type of the async iterator. *)
Context {KeyLike : Type}.

(** An instance: the properties of [Error] read by the sources ([name],
    [message]), the [code], [claim] and [reason] fields of the classes,
    and the [Symbol.asyncIterator] member.  [None] is a property that
    was never assigned. *)
Record ErrorObject : Type :=
  { name : string;
    message : string;
    code : string;
    claim : option string;
    reason : option string;
    asyncIterator : option (unit -> AsyncIterableIterator KeyLike) }.

Definition set_name (v : string) (this : ErrorObject) : ErrorObject :=
  {| name := v; message := message this; code := code this;
     claim := claim this; reason := reason this;
     asyncIterator := asyncIterator this |}.

Definition set_message (v : string) (this : ErrorObject) : ErrorObject :=
  {| name := name this; message := v; code := code this;
     claim := claim this; reason := reason this;
     asyncIterator := asyncIterator this |}.

Definition set_code (v : string) (this : ErrorObject) : ErrorObject :=
  {| name := name this; message := message this; code := v;
     claim := claim this; reason := reason this;
     asyncIterator := asyncIterator this |}.

Definition set_claim (v : string) (this : ErrorObject) : ErrorObject :=
  {| name := name this; message := message this; code := code this;
     claim := Some v; reason := reason this;
     asyncIterator := asyncIterator this |}.

Definition set_reason (v : string) (this : ErrorObject) : ErrorObject :=
  {| name := name this; message := message this; code := code this;
     claim := claim this; reason := Some v;
     asyncIterator := asyncIterator this |}.

Definition set_asyncIterator
    (v : unit -> AsyncIterableIterator KeyLike) (this : ErrorObject)
  : ErrorObject :=
  {| name := name this; message := message this; code := code this;
     claim := claim this; reason := reason this;
     asyncIterator := Some v |}.

(** A parameter with a default value takes the default when the
    argument is [undefined]. *)
Definition default_param (d : string) (arg : option string) : string :=
  match arg with
  | Some v => v
  | None => d
  end.

(** [class JOSEError extends Error]: [super(message)] leaves the
    message of [Error.prototype] (the empty string) in place when
    [message] is [undefined]; then the field initializer for [code]
    runs, then the constructor body sets [name] to the name of the
    class being constructed. *)
Definition new_JOSEError (new_target : ErrorClass) (msg : option string)
  : ErrorObject :=
  let this :=
    {| name := "Error"; message := default_param EmptyString msg;
       code := "ERR_JOSE_GENERIC";
       claim := None; reason := None; asyncIterator := None |} in
  set_name (class_name new_target) this.

Definition new_JWTClaimValidationFailed
    (msg : option string) (claim reason : option string) : ErrorObject :=
  let claim := default_param "unspecified" claim in
  let reason := default_param "unspecified" reason in
  let this := new_JOSEError JWTClaimValidationFailed msg in
  let this := set_code "ERR_JWT_CLAIM_VALIDATION_FAILED" this in
  let this := set_claim claim this in
  set_reason reason this.

Definition new_JWTExpired
    (msg : option string) (claim reason : option string) : ErrorObject :=
  let claim := default_param "unspecified" claim in
  let reason := default_param "unspecified" reason in
  let this := new_JOSEError JWTExpired msg in
  let this := set_code "ERR_JWT_EXPIRED" this in
  let this := set_claim claim this in
  set_reason reason this.

Definition new_JOSEAlgNotAllowed (msg : option string) : ErrorObject :=
  let this := new_JOSEError JOSEAlgNotAllowed msg in
  set_code "ERR_JOSE_ALG_NOT_ALLOWED" this.

Definition new_JOSENotSupported (msg : option string) : ErrorObject :=
  let this := new_JOSEError JOSENotSupported msg in
  set_code "ERR_JOSE_NOT_SUPPORTED" this.

Definition new_JWEDecryptionFailed (msg : option string) : ErrorObject :=
  let this := new_JOSEError JWEDecryptionFailed msg in
  let this := set_code "ERR_JWE_DECRYPTION_FAILED" this in
  set_message "decryption operation failed" this.

Definition new_JWEDecompressionFailed (msg : option string)
  : ErrorObject :=
  let this := new_JOSEError JWEDecompressionFailed msg in
  let this := set_code "ERR_JWE_DECOMPRESSION_FAILED" this in
  set_message "decompression operation failed" this.

Definition new_JWEInvalid (msg : option string) : ErrorObject :=
  let this := new_JOSEError JWEInvalid msg in
  set_code "ERR_JWE_INVALID" this.

Definition new_JWSInvalid (msg : option string) : ErrorObject :=
  let this := new_JOSEError JWSInvalid msg in
  set_code "ERR_JWS_INVALID" this.

Definition new_JWTInvalid (msg : option string) : ErrorObject :=
  let this := new_JOSEError JWTInvalid msg in
  set_code "ERR_JWT_INVALID" this.

Definition new_JWKInvalid (msg : option string) : ErrorObject :=
  let this := new_JOSEError JWKInvalid msg in
  set_code "ERR_JWK_INVALID" this.

Definition new_JWKSInvalid (msg : option string) : ErrorObject :=
  let this := new_JOSEError JWKSInvalid msg in
  set_code "ERR_JWKS_INVALID" this.

Definition new_JWKSNoMatchingKey (msg : option string) : ErrorObject :=
  let this := new_JOSEError JWKSNoMatchingKey msg in
  let this := set_code "ERR_JWKS_NO_MATCHING_KEY" this in
  set_message "no applicable key found in the JSON Web Key Set" this.

(** The [Symbol.asyncIterator] member is declared without an
    initializer: the constructor leaves it unassigned. *)
Definition new_JWKSMultipleMatchingKeys (msg : option string)
  : ErrorObject :=
  let this := new_JOSEError JWKSMultipleMatchingKeys msg in
  let this := set_code "ERR_JWKS_MULTIPLE_MATCHING_KEYS" this in
  set_message "multiple matching keys found in the JSON Web Key Set" this.

Definition new_JWKSTimeout (msg : option string) : ErrorObject :=
  let this := new_JOSEError JWKSTimeout msg in
  let this := set_code "ERR_JWKS_TIMEOUT" this in
  set_message "request timed out" this.

Definition new_JWSSignatureVerificationFailed (msg : option string)
  : ErrorObject :=
  let this := new_JOSEError JWSSignatureVerificationFailed msg in
  let this := set_code "ERR_JWS_SIGNATURE_VERIFICATION_FAILED" this in
  set_message "signature verification failed" this.

(** The arguments of a [new C(...)] expression: the classes read at
    most three, and an argument that is not passed is [undefined]. *)
Record Args : Type :=
  { arg_message : option string;
    arg_claim : option string;
    arg_reason : option string }.

(** [new C(message, claim, reason)] *)
Definition construct (c : ErrorClass) (args : Args) : ErrorObject :=
  match c with
  | JOSEError => new_JOSEError JOSEError (arg_message args)
  | JWTClaimValidationFailed =>
      new_JWTClaimValidationFailed
        (arg_message args) (arg_claim args) (arg_reason args)
  | JWTExpired =>
      new_JWTExpired (arg_message args) (arg_claim args) (arg_reason args)
  | JOSEAlgNotAllowed => new_JOSEAlgNotAllowed (arg_message args)
  | JOSENotSupported => new_JOSENotSupported (arg_message args)
  | JWEDecryptionFailed => new_JWEDecryptionFailed (arg_message args)
  | JWEDecompressionFailed =>
      new_JWEDecompressionFailed (arg_message args)
  | JWEInvalid => new_JWEInvalid (arg_message args)
  | JWSInvalid => new_JWSInvalid (arg_message args)
  | JWTInvalid => new_JWTInvalid (arg_message args)
  | JWKInvalid => new_JWKInvalid (arg_message args)
  | JWKSInvalid => new_JWKSInvalid (arg_message args)
  | JWKSNoMatchingKey => new_JWKSNoMatchingKey (arg_message args)
  | JWKSMultipleMatchingKeys =>
      new_JWKSMultipleMatchingKeys (arg_message args)
  | JWKSTimeout => new_JWKSTimeout (arg_message args)
  | JWSSignatureVerificationFailed =>
      new_JWSSignatureVerificationFailed (arg_message args)
  end.

End Instances.

Arguments ErrorObject KeyLike : clear implicits.

End Errors.

(** ** The class hierarchy of util/errors *)

Module ErrorHierarchy.

Import Errors.

(** The [extends] clause of each class.  [None] stands for [Error], which
    is not one of the sixteen.  ([JWTExpired] names
    [JWTClaimValidationFailed] in its [implements] clause, which only
    constrains its shape.) *)
Definition superclass (c : ErrorClass) : option ErrorClass :=
  match c with
  | JOSEError => None
  | JWTClaimValidationFailed => Some JOSEError
  | JWTExpired => Some JOSEError
  | JOSEAlgNotAllowed => Some JOSEError
  | JOSENotSupported => Some JOSEError
  | JWEDecryptionFailed => Some JOSEError
  | JWEDecompressionFailed => Some JOSEError
  | JWEInvalid => Some JOSEError
  | JWSInvalid => Some JOSEError
  | JWTInvalid => Some JOSEError
  | JWKInvalid => Some JOSEError
  | JWKSInvalid => Some JOSEError
  | JWKSNoMatchingKey => Some JOSEError
  | JWKSMultipleMatchingKeys => Some JOSEError
  | JWKSTimeout => Some JOSEError
  | JWSSignatureVerificationFailed => Some JOSEError
  end.

Definition ErrorClass_eq_dec (c1 c2 : ErrorClass) : {c1 = c2} + {c1 <> c2}.
Proof. decide equality. Defined.

(** The classes whose prototype is on the prototype chain of an instance
    of [c], following at most [fuel] [extends] links. *)
Fixpoint prototype_chain (fuel : nat) (c : ErrorClass) : list ErrorClass :=
  c :: match fuel with
       | O => []
       | S fuel' =>
           match superclass c with
           | Some parent => prototype_chain fuel' parent
           | None => []
           end
       end.

(** [new c(...) instanceof target] *)
Definition instanceof (c target : ErrorClass) : bool :=
  existsb
    (fun k => if ErrorClass_eq_dec k target then true else false)
    (prototype_chain (length classes) c).

End ErrorHierarchy.

(** ** Key selection over a key set *)

Module JWKS.

Import Errors.

Definition no_arguments : Args :=
  {| arg_message := None; arg_claim := None; arg_reason := None |}.

(** Modelled from the spec: the matching step of the key selector (the
    JWKS resolver is not among the embedded sources).  The key set is
    filtered against the header constraints; no match is the
    [JWKSNoMatchingKey] failure, exactly one match is returned, and more
    than one match is the [JWKSMultipleMatchingKeys] failure carrying the
    sequence of all matches as its async iterator. *)
Definition select {KeyLike : Type}
    (constraints : KeyLike -> bool) (keySet : list KeyLike)
  : Completion (ErrorObject KeyLike) KeyLike :=
  let candidates := filter constraints keySet in
  match candidates with
  | [] => Throw (construct JWKSNoMatchingKey no_arguments)
  | [key] => Normal key
  | _ =>
      let error := construct JWKSMultipleMatchingKeys no_arguments in
      Throw (set_asyncIterator (fun _ => {| pending := candidates |}) error)
  end.

End JWKS.

(** ** runtime/aesgcmkw *)

Module AesGcmKw.

(** The object [encrypt] resolves with: [{ ciphertext, tag }]. *)
Module EncryptResult.
Record t : Type :=
  { ciphertext : list byte;
    tag : list byte }.
End EncryptResult.

(** The functions the file imports: the content-encryption primitives
    [encrypt] and [decrypt], the IV generator and the base64url encoder.
    [W] is the provider state, [E] what the imports throw or reject with
    and [K] the type of keys (the file passes keys on unseen).
    [generateIv] is synchronous; it reads the provider's entropy and, in an
    [async] function, an exception it throws rejects the promise, so it has
    the type of the asynchronous calls. *)
Class Imports (W E K : Type) : Type :=
  { encrypt :
      string -> list byte -> K -> list byte -> list byte ->
      Async W E EncryptResult.t;
    decrypt :
      string -> K -> list byte -> list byte -> list byte -> list byte ->
      Async W E (list byte);
    generateIv : string -> Async W E (list byte);
    base64url : list byte -> string }.

(** What [wrap] resolves with. *)
Record WrapResult : Type :=
  { encryptedKey : list byte;
    iv : string;
    tag : string }.

Section WrapFunctions.

Context {W E K : Type} `{Imports W E K}.

(** [x ||= e] on an optional [Uint8Array]: [undefined] is falsy and takes
    the value of [e]; an array is an object, and every object is truthy,
    the empty array too, so [e] is not evaluated. *)
Definition or_assign (x : option (list byte)) (e : Async W E (list byte))
  : Async W E (list byte) :=
  match x with
  | Some v => ret v
  | None => e
  end.

Definition wrap (alg : string) (key : K) (cek : list byte)
    (iv : option (list byte)) : Async W E WrapResult :=
  let jweAlgorithm := JSString.substr alg 0 (Some 7%Z) in
  iv <- or_assign iv (generateIv jweAlgorithm) ;;
  r <- encrypt jweAlgorithm cek key iv [] ;;
  ret {| encryptedKey := EncryptResult.ciphertext r;
         iv := base64url iv;
         tag := base64url (EncryptResult.tag r) |}.

Definition unwrap (alg : string) (key : K) (encryptedKey : list byte)
    (iv : list byte) (tag : list byte) : Async W E (list byte) :=
  let jweAlgorithm := JSString.substr alg 0 (Some 7%Z) in
  decrypt jweAlgorithm key encryptedKey iv tag [].

End WrapFunctions.

End AesGcmKw.

(** ** runtime/get_sign_verify_key *)

Module GetSignVerifyKey.

(** The [KeyUsage] strings of the Web Cryptography API. *)
Inductive KeyUsage : Type :=
| usage_decrypt
| usage_deriveBits
| usage_deriveKey
| usage_encrypt
| usage_sign
| usage_unwrapKey
| usage_verify
| usage_wrapKey.

(** The object literal passed to [importKey]:
    [{ hash: { name: ... }, name: ... }]. *)
Module HashAlgorithm.
Record t : Type :=
  { name : string }.
End HashAlgorithm.

Record HmacImportParams : Type :=
  { hash : HashAlgorithm.t;
    name : string }.

(** A value of type [unknown], told apart by the runtime tests the file
    applies to it. *)
Inductive unknown (CryptoKey : Type) : Type :=
| Undefined
| Null
| Boolean (b : bool)
| Str (s : string)
| Uint8Array (bytes : list byte)
| CryptoKeyObject (k : CryptoKey)
| OtherObject (constructor_name : string).

Arguments Undefined {CryptoKey}.
Arguments Null {CryptoKey}.
Arguments Boolean {CryptoKey} b.
Arguments Str {CryptoKey} s.
Arguments Uint8Array {CryptoKey} bytes.
Arguments CryptoKeyObject {CryptoKey} k.
Arguments OtherObject {CryptoKey} constructor_name.

(** The exceptions of the file: the [TypeError]s it throws itself, and
    whatever else an import throws. *)
Inductive Thrown : Type :=
| TypeError (message : string)
| OtherError (name message : string).

(** The type guard of [webcrypto]: [key instanceof CryptoKey]. *)
Definition isCryptoKey {CryptoKey} (key : unknown CryptoKey)
  : option CryptoKey :=
  match key with
  | CryptoKeyObject k => Some k
  | _ => None
  end.

(** [key instanceof Uint8Array] *)
Definition instanceofUint8Array {CryptoKey} (key : unknown CryptoKey)
  : option (list byte) :=
  match key with
  | Uint8Array bytes => Some bytes
  | _ => None
  end.

(** The imports of the file: [crypto.subtle.importKey] (format, key data,
    algorithm, extractable, key usages), the usability check of
    [crypto_key] and the message builder of [invalid_key_input] (the key
    and the accepted type names). *)
Class Imports (W CryptoKey : Type) : Type :=
  { importKey :
      string -> list byte -> HmacImportParams -> bool -> list KeyUsage ->
      Async W Thrown CryptoKey;
    checkSigCryptoKey :
      CryptoKey -> string -> KeyUsage -> Completion Thrown unit;
    invalidKeyInput : unknown CryptoKey -> list string -> string }.

(** [getCryptoKey] returns a key or the promise of one. *)
Inductive KeyOrPromise (W CryptoKey : Type) : Type :=
| Key (k : CryptoKey)
| PromiseOf (p : Async W Thrown CryptoKey).

Arguments Key {W CryptoKey} k.
Arguments PromiseOf {W CryptoKey} p.

Section KeyFunctions.

Context {W CryptoKey : Type} `{Imports W CryptoKey}.

Definition getCryptoKey (alg : string) (key : unknown CryptoKey)
    (usage : KeyUsage) : Completion Thrown (KeyOrPromise W CryptoKey) :=
  match isCryptoKey key with
  | Some k =>
      match checkSigCryptoKey k alg usage with
      | Throw e => Throw e
      | Normal _ => Normal (Key k)
      end
  | None =>
      match instanceofUint8Array key with
      | Some bytes =>
          if negb (JSString.startsWith alg "HS")
          then Throw (TypeError (invalidKeyInput key ["CryptoKey"]))
          else
            Normal
              (PromiseOf
                 (importKey "raw" bytes
                    {| hash :=
                         {| HashAlgorithm.name :=
                              "SHA-" ++ JSString.substr alg (-3) None |};
                       name := "HMAC" |}
                    false [usage]))
      | None =>
          Throw (TypeError (invalidKeyInput key ["CryptoKey"; "Uint8Array"]))
      end
  end.

End KeyFunctions.

End GetSignVerifyKey.

(** ** Deterministic test providers

    Instances of the import interfaces that compute, used to run the
    functions on concrete inputs. *)

Module TestProvider.

Import Errors.

Definition supported (alg : string) : bool :=
  existsb (String.eqb alg) ["A128GCM"; "A192GCM"; "A256GCM"].

Definition not_supported : ErrorObject unit :=
  construct JOSENotSupported JWKS.no_arguments.

Definition decryption_failed : ErrorObject unit :=
  construct JWEDecryptionFailed JWKS.no_arguments.

(** Twelve bytes drawn from a counter. *)
Definition test_generateIv (alg : string)
  : Async nat (ErrorObject unit) (list byte) :=
  fun w =>
    if supported alg
    then
      let b :=
        match Byte.of_nat (Nat.modulo w 256) with
        | Some b => b
        | None => x00
        end in
      (Normal (repeat b 12), S w)
    else (Throw not_supported, w).

(** A stand-in cipher: the ciphertext is the plaintext reversed and the
    tag binds the key, the IV and the additional data. *)
Definition test_encrypt (alg : string) (plaintext key iv aad : list byte)
  : Async nat (ErrorObject unit) AesGcmKw.EncryptResult.t :=
  if supported alg
  then
    resolve
      {| AesGcmKw.EncryptResult.ciphertext := rev plaintext;
         AesGcmKw.EncryptResult.tag := key ++ iv ++ aad |}
  else reject not_supported.

Definition test_decrypt (alg : string) (key ciphertext iv tag aad : list byte)
  : Async nat (ErrorObject unit) (list byte) :=
  if supported alg
  then
    if list_eq_dec Byte.byte_eq_dec tag (key ++ iv ++ aad)
    then resolve (rev ciphertext)
    else reject decryption_failed
  else reject not_supported.

(** Encoder and decoder of the stand-in codec: one character per byte. *)
Definition test_encode (bytes : list byte) : string :=
  string_of_list_byte bytes.

Definition test_decode (s : string) : option (list byte) :=
  Some (list_byte_of_string s).

#[export] Instance aesgcmkw_imports
  : AesGcmKw.Imports nat (ErrorObject unit) (list byte) :=
  {| AesGcmKw.encrypt := test_encrypt;
     AesGcmKw.decrypt := test_decrypt;
     AesGcmKw.generateIv := test_generateIv;
     AesGcmKw.base64url := test_encode |}.

(** A key store that records what [importKey] was asked for. *)
Record TestKey : Type :=
  { key_data : list byte;
    key_algorithm : GetSignVerifyKey.HmacImportParams;
    key_extractable : bool;
    key_usages : list GetSignVerifyKey.KeyUsage }.

Definition test_importKey (format : string) (keyData : list byte)
    (algorithm : GetSignVerifyKey.HmacImportParams) (extractable : bool)
    (keyUsages : list GetSignVerifyKey.KeyUsage)
  : Async unit GetSignVerifyKey.Thrown TestKey :=
  if String.eqb format "raw"
  then
    resolve
      {| key_data := keyData; key_algorithm := algorithm;
         key_extractable := extractable; key_usages := keyUsages |}
  else reject (GetSignVerifyKey.OtherError "NotSupportedError" format).

Definition KeyUsage_eq_dec (u1 u2 : GetSignVerifyKey.KeyUsage)
  : {u1 = u2} + {u1 <> u2}.
Proof. decide equality. Defined.

(** A key is usable when its usages include the requested one. *)
Definition test_checkSigCryptoKey (key : TestKey) (alg : string)
    (usage : GetSignVerifyKey.KeyUsage)
  : Completion GetSignVerifyKey.Thrown unit :=
  if in_dec KeyUsage_eq_dec usage (key_usages key)
  then Normal tt
  else
    Throw
      (GetSignVerifyKey.TypeError
         "CryptoKey does not support this operation").

Definition test_invalidKeyInput (key : GetSignVerifyKey.unknown TestKey)
    (types : list string) : string :=
  "Key must be one of type " ++ String.concat ", " types.

#[export] Instance get_sign_verify_key_imports
  : GetSignVerifyKey.Imports unit TestKey :=
  {| GetSignVerifyKey.importKey := test_importKey;
     GetSignVerifyKey.checkSigCryptoKey := test_checkSigCryptoKey;
     GetSignVerifyKey.invalidKeyInput := test_invalidKeyInput |}.

End TestProvider.

(** * Properties *)

(** ** Strings *)

Module JSStringFacts.

Import JSString.

(** Taking a prefix with [substring] is [firstn] on the characters. *)
Lemma substring_0_firstn (n : nat) (s : string) :
  String.substring 0 n s
  = string_of_list_ascii (firstn n (list_ascii_of_string s)).
Proof.
  revert n; induction s as [|c s IH]; intros [|n]; simpl;
    try reflexivity.
  now rewrite IH.
Qed.

Lemma length_list_ascii_of_string (s : string) :
  List.length (list_ascii_of_string s) = String.length s.
Proof. induction s as [|c s IH]; simpl; congruence. Qed.

(** [s.substr(0, n)] keeps the first [n] characters of [s] (all of [s]
    when it is shorter). *)
Lemma substr_0_firstn (s : string) (n : nat) :
  substr s 0 (Some (Z.of_nat n))
  = string_of_list_ascii (firstn n (list_ascii_of_string s)).
Proof.
  unfold substr. cbn [Z.ltb Z.compare].
  set (size := Z.of_nat (String.length s)).
  replace (Z.to_nat (Z.min 0 size)) with 0%nat by lia.
  replace (Z.to_nat _) with (Nat.min n (String.length s)) by lia.
  rewrite substring_0_firstn.
  destruct (Nat.min_spec n (String.length s)) as [[Hlt ->]|[Hle ->]];
    [reflexivity|].
  rewrite <- (length_list_ascii_of_string s) in *.
  rewrite firstn_all, firstn_all2 by lia. reflexivity.
Qed.

(** [substring] in terms of the list functions. *)
Lemma substring_skipn_firstn (n m : nat) (s : string) :
  String.substring n m s
  = string_of_list_ascii (firstn m (skipn n (list_ascii_of_string s))).
Proof.
  revert n m; induction s as [|c s IH]; intros [|n] [|m]; simpl;
    try reflexivity.
  - now rewrite (IH 0).
  - apply IH.
  - apply IH.
Qed.

(** [s.substr(-n)] keeps the last [n] characters of [s] (all of [s] when
    it is shorter).  [n] is positive: [s.substr(-0)] is [s.substr(0)]. *)
Lemma substr_last (s : string) (n : nat) :
  0 < n ->
  substr s (- Z.of_nat n) None
  = string_of_list_ascii
      (skipn (String.length s - n) (list_ascii_of_string s)).
Proof.
  intros Hn. unfold substr.
  destruct (Z.ltb_spec (- Z.of_nat n) 0) as [_|Hge]; [|lia].
  set (size := Z.of_nat (String.length s)).
  replace (Z.to_nat (Z.max (size + - Z.of_nat n) 0))
    with (String.length s - n) by lia.
  replace (Z.to_nat _) with (String.length s - (String.length s - n)) by lia.
  rewrite substring_skipn_firstn.
  rewrite firstn_all2; [reflexivity|].
  rewrite length_skipn, length_list_ascii_of_string. lia.
Qed.

Lemma length_substr_0 (s : string) (n : nat) :
  String.length (substr s 0 (Some (Z.of_nat n))) = Nat.min n (String.length s).
Proof.
  rewrite substr_0_firstn.
  rewrite <- (length_list_ascii_of_string (string_of_list_ascii _)).
  rewrite list_ascii_of_string_of_list_ascii, length_firstn.
  now rewrite length_list_ascii_of_string.
Qed.

End JSStringFacts.

(** ** Async iteration *)

(** Consuming an iterator over [l] takes one call to [next] per element
    and one more to see the end, and yields [l]. *)
Lemma for_await_pending {A} (l : list A) (fuel : nat) :
  length l < fuel -> for_await fuel {| pending := l |} = Some l.
Proof.
  revert fuel; induction l as [|x l IH]; intros [|fuel] Hfuel;
    simpl in *; try lia; try reflexivity.
  unfold next; simpl. rewrite IH by lia. reflexivity.
Qed.

(** ** The error classes *)

Module ErrorsFacts.

Import Errors.

Section WithKeyLike.

Context {KeyLike : Type}.

(** The field initializer of every class writes the literal its static
    getter returns. *)
Lemma code_construct (c : ErrorClass) (args : Args) :
  code (@construct KeyLike c args) = static_code c.
Proof. destruct c; reflexivity. Qed.

(** The constructors name the instance after its class. *)
Lemma name_construct (c : ErrorClass) (args : Args) :
  name (@construct KeyLike c args) = class_name c.
Proof. destruct c; reflexivity. Qed.

End WithKeyLike.

(** No two classes return the same static code. *)
Lemma static_code_inj (c1 c2 : ErrorClass) :
  static_code c1 = static_code c2 -> c1 = c2.
Proof.
  destruct c1, c2; simpl; intros Heq;
    first [ reflexivity | discriminate Heq ].
Qed.

Lemma classes_complete (c : ErrorClass) : In c classes.
Proof. destruct c; simpl; tauto. Qed.

Section CodesAndMessages.

Context {KeyLike : Type}.

(** C4: whatever is passed to the constructor, a [JWEDecryptionFailed] has
    the message 'decryption operation failed' and a
    [JWSSignatureVerificationFailed] has the message 'signature
    verification failed'; two instances of either class built from
    different arguments carry the same message, so the message cannot tell
    one failure cause from another. *)
Theorem crypto_outcome_message_fixed :
  (forall args : Args,
      message (@construct KeyLike JWEDecryptionFailed args)
      = "decryption operation failed")
  /\ (forall args : Args,
         message (@construct KeyLike JWSSignatureVerificationFailed args)
         = "signature verification failed")
  /\ (forall args1 args2 : Args,
         message (@construct KeyLike JWEDecryptionFailed args1)
         = message (@construct KeyLike JWEDecryptionFailed args2))
  /\ (forall args1 args2 : Args,
         message (@construct KeyLike JWSSignatureVerificationFailed args1)
         = message (@construct KeyLike JWSSignatureVerificationFailed args2)).
Proof. repeat split. Qed.

(** C5: every instance of every class carries the code its class returns
    from the static getter, and the static codes of the sixteen classes are
    pairwise distinct. *)
Theorem instance_code_is_static_code :
  (forall (c : ErrorClass) (args : Args),
      code (@construct KeyLike c args) = static_code c)
  /\ (forall c1 c2 : ErrorClass, c1 <> c2 -> static_code c1 <> static_code c2)
  /\ NoDup (map static_code classes)
  /\ length classes = 16
  /\ (forall c : ErrorClass, In c classes).
Proof.
  split; [exact code_construct|].
  split; [intros c1 c2 Hneq Heq; exact (Hneq (static_code_inj _ _ Heq))|].
  split; [|split; [reflexivity | exact classes_complete]].
  unfold classes; simpl.
  repeat (constructor; [simpl; intuition discriminate|]).
  constructor.
Qed.

(** C6: a [JOSEAlgNotAllowed] carries 'ERR_JOSE_ALG_NOT_ALLOWED', a
    [JOSENotSupported] carries 'ERR_JOSE_NOT_SUPPORTED', as instance code
    and as static code, and the two codes differ. *)
Theorem alg_not_allowed_vs_not_supported :
  (forall args : Args,
      code (@construct KeyLike JOSEAlgNotAllowed args)
      = "ERR_JOSE_ALG_NOT_ALLOWED")
  /\ (forall args : Args,
         code (@construct KeyLike JOSENotSupported args)
         = "ERR_JOSE_NOT_SUPPORTED")
  /\ static_code JOSEAlgNotAllowed = "ERR_JOSE_ALG_NOT_ALLOWED"
  /\ static_code JOSENotSupported = "ERR_JOSE_NOT_SUPPORTED"
  /\ (forall args1 args2 : Args,
         code (@construct KeyLike JOSEAlgNotAllowed args1)
         <> code (@construct KeyLike JOSENotSupported args2)).
Proof.
  repeat split. intros args1 args2. simpl. discriminate.
Qed.

End CodesAndMessages.

End ErrorsFacts.

(** ** Key selection *)

Module JWKSFacts.

Import Errors.

Section Selection.

Context {KeyLike : Type}.

(** With no candidate the selection fails with the no-matching-key error. *)
Lemma select_no_match (constraints : KeyLike -> bool) (keySet : list KeyLike) :
  filter constraints keySet = [] ->
  exists error,
    JWKS.select constraints keySet = Throw error
    /\ code error = static_code JWKSNoMatchingKey.
Proof.
  intros Hnone. unfold JWKS.select. rewrite Hnone.
  eexists; split; reflexivity.
Qed.

(** C8: [JWKSMultipleMatchingKeys] has the code
    'ERR_JWKS_MULTIPLE_MATCHING_KEYS', as static code and on every
    instance, which differs from the 'ERR_JWKS_NO_MATCHING_KEY' of
    [JWKSNoMatchingKey]; and when two or more keys of the key set match,
    the selection fails with an error of that code whose async iterator
    yields exactly the matching keys, in the order of the key set. *)
Theorem multiple_matching_keys_carries_candidates
    (constraints : KeyLike -> bool) (keySet : list KeyLike) :
  2 <= length (filter constraints keySet) ->
  static_code JWKSMultipleMatchingKeys = "ERR_JWKS_MULTIPLE_MATCHING_KEYS"
  /\ static_code JWKSNoMatchingKey = "ERR_JWKS_NO_MATCHING_KEY"
  /\ static_code JWKSMultipleMatchingKeys <> static_code JWKSNoMatchingKey
  /\ (forall args : Args,
         code (@construct KeyLike JWKSMultipleMatchingKeys args)
         = "ERR_JWKS_MULTIPLE_MATCHING_KEYS")
  /\ exists error iterate,
      JWKS.select constraints keySet = Throw error
      /\ code error = "ERR_JWKS_MULTIPLE_MATCHING_KEYS"
      /\ asyncIterator error = Some iterate
      /\ forall fuel : nat,
          length (filter constraints keySet) < fuel ->
          for_await fuel (iterate tt) = Some (filter constraints keySet).
Proof.
  intros Hmany.
  split; [reflexivity|]. split; [reflexivity|].
  split; [simpl; discriminate|]. split; [reflexivity|].
  unfold JWKS.select.
  destruct (filter constraints keySet) as [|k1 [|k2 rest]] eqn:Hcandidates;
    simpl in Hmany; try lia.
  eexists; eexists. split; [reflexivity|].
  split; [reflexivity|]. split; [reflexivity|].
  intros fuel Hfuel. now apply for_await_pending.
Qed.

End Selection.

(** Two of four keys match: the error carries these two. *)
Lemma multiple_matching_keys_witness :
  2 <= length (filter Nat.even [1; 2; 3; 4])
  /\ exists error iterate,
      JWKS.select Nat.even [1; 2; 3; 4] = Throw error
      /\ code error = "ERR_JWKS_MULTIPLE_MATCHING_KEYS"
      /\ asyncIterator error = Some iterate
      /\ forall fuel : nat,
          length (filter Nat.even [1; 2; 3; 4]) < fuel ->
          for_await fuel (iterate tt) = Some (filter Nat.even [1; 2; 3; 4]).
Proof.
  split; [simpl; lia|].
  apply (@multiple_matching_keys_carries_candidates nat Nat.even [1; 2; 3; 4]).
  simpl; lia.
Defined.

End JWKSFacts.

(** ** AES-GCM key wrapping *)

Module AesGcmKwFacts.

Import JSString AesGcmKw.

(** Case analysis on the outcome of a provider call. *)
Ltac settle_call c :=
  let outcome := fresh "outcome" in
  let w := fresh "w" in
  let Hcall := fresh "Hcall" in
  destruct c as [outcome w] eqn:Hcall; destruct outcome.

Section WithWrapImports.

Context {W E K : Type} {imports : Imports W E K}.

(** With an IV passed in, [wrap] is one call to [encrypt]. *)
Lemma wrap_given_iv (alg : string) (key : K) (cek given : list byte) (w : W) :
  wrap alg key cek (Some given) w
  = match encrypt (substr alg 0 (Some 7%Z)) cek key given [] w with
    | (Normal r, w') =>
        (Normal {| encryptedKey := EncryptResult.ciphertext r;
                   iv := base64url given;
                   tag := base64url (EncryptResult.tag r) |}, w')
    | (Throw e, w') => (Throw e, w')
    end.
Proof. reflexivity. Qed.

(** Without one, [generateIv] runs first, on the truncated identifier. *)
Lemma wrap_generated_iv (alg : string) (key : K) (cek : list byte) (w : W) :
  wrap alg key cek None w
  = match generateIv (substr alg 0 (Some 7%Z)) w with
    | (Normal generated, w1) =>
        match encrypt (substr alg 0 (Some 7%Z)) cek key generated [] w1 with
        | (Normal r, w') =>
            (Normal {| encryptedKey := EncryptResult.ciphertext r;
                       iv := base64url generated;
                       tag := base64url (EncryptResult.tag r) |}, w')
        | (Throw e, w') => (Throw e, w')
        end
    | (Throw e, w1) => (Throw e, w1)
    end.
Proof. reflexivity. Qed.

(** What a fulfilled [wrap] has done. *)
Lemma wrap_fulfils_inv
    (alg : string) (key : K) (cek : list byte) (iv : option (list byte))
    (w w' : W) (result : WrapResult) :
  wrap alg key cek iv w = (Normal result, w') ->
  exists (iv_used : list byte) (w_iv : W) (r : EncryptResult.t),
    match iv with
    | Some given => iv_used = given /\ w_iv = w
    | None => generateIv (substr alg 0 (Some 7%Z)) w = (Normal iv_used, w_iv)
    end
    /\ encrypt (substr alg 0 (Some 7%Z)) cek key iv_used [] w_iv
       = (Normal r, w')
    /\ result = {| encryptedKey := EncryptResult.ciphertext r;
                   AesGcmKw.iv := base64url iv_used;
                   tag := base64url (EncryptResult.tag r) |}.
Proof.
  destruct iv as [given|].
  - rewrite wrap_given_iv.
    settle_call (encrypt (substr alg 0 (Some 7%Z)) cek key given [] w);
      intros Heq; inversion Heq; subst.
    exists given, w, a. repeat split; assumption.
  - rewrite wrap_generated_iv.
    settle_call (generateIv (substr alg 0 (Some 7%Z)) w);
      [|intros Heq; inversion Heq].
    settle_call (encrypt (substr alg 0 (Some 7%Z)) cek key a [] w0);
      intros Heq; inversion Heq; subst.
    exists a, w0, a0. repeat split; assumption.
Qed.

(** C1: [wrap] fulfils with [result], leaving the provider in state [w'],
    exactly when: the IV it uses is the one passed in (and no entropy is
    drawn), or, none being passed, the one [generateIv] returns for the
    first seven characters of [alg]; [encrypt], called with that truncated
    identifier, the CEK, the key, that IV and an empty AAD, fulfils with a
    ciphertext and a tag; and [result] holds the ciphertext as
    [encryptedKey] and the base64url encodings of the IV and of the tag. *)
Theorem wrap_fulfils_iff
    (alg : string) (key : K) (cek : list byte) (iv : option (list byte))
    (w w' : W) (result : WrapResult) :
  wrap alg key cek iv w = (Normal result, w')
  <-> exists (iv_used : list byte) (w_iv : W) (r : EncryptResult.t),
      match iv with
      | Some given => iv_used = given /\ w_iv = w
      | None => generateIv (substr alg 0 (Some 7%Z)) w = (Normal iv_used, w_iv)
      end
      /\ encrypt (substr alg 0 (Some 7%Z)) cek key iv_used [] w_iv
         = (Normal r, w')
      /\ result = {| encryptedKey := EncryptResult.ciphertext r;
                     AesGcmKw.iv := base64url iv_used;
                     tag := base64url (EncryptResult.tag r) |}.
Proof.
  split; [apply wrap_fulfils_inv|].
  destruct iv as [given|].
  - intros (iv_used & w_iv & r & [-> ->] & Henc & ->).
    now rewrite wrap_given_iv, Henc.
  - intros (iv_used & w_iv & r & Hgen & Henc & ->).
    now rewrite wrap_generated_iv, Hgen, Henc.
Qed.

(** C2: if decoding inverts [base64url] and [decrypt] inverts [encrypt] at
    an empty AAD (same identifier, key and IV, in whatever state the
    provider is), then after [wrap] has fulfilled, its [iv] and [tag]
    decode, and [unwrap] of its [encryptedKey] with the decoded IV and tag
    fulfils with the CEK that was wrapped. *)
Theorem unwrap_inverts_wrap
    (decode : string -> option (list byte))
    (decode_encode : forall bytes : list byte,
        decode (base64url bytes) = Some bytes)
    (decrypt_inverts_encrypt :
      forall (a : string) (k : K) (plaintext nonce : list byte)
             (r : EncryptResult.t) (w w' : W),
        encrypt a plaintext k nonce [] w = (Normal r, w') ->
        forall w2 : W,
          settle
            (decrypt a k (EncryptResult.ciphertext r) nonce
               (EncryptResult.tag r) [])
            w2
          = Normal plaintext)
    (alg : string) (key : K) (cek : list byte) (iv : option (list byte))
    (w w' : W) (result : WrapResult) :
  wrap alg key cek iv w = (Normal result, w') ->
  exists iv_bytes tag_bytes : list byte,
    decode (AesGcmKw.iv result) = Some iv_bytes
    /\ decode (tag result) = Some tag_bytes
    /\ forall w2 : W,
        settle (unwrap alg key (encryptedKey result) iv_bytes tag_bytes) w2
        = Normal cek.
Proof.
  intros Hwrap.
  apply wrap_fulfils_inv in Hwrap.
  destruct Hwrap as (iv_used & w_iv & r & _ & Henc & ->).
  exists iv_used, (EncryptResult.tag r). cbn [AesGcmKw.iv tag encryptedKey].
  split; [apply decode_encode|]. split; [apply decode_encode|].
  intros w2. unfold unwrap.
  exact (decrypt_inverts_encrypt _ _ _ _ _ _ _ Henc w2).
Qed.

(** C3: [wrap] and [unwrap] hand the imports the result of
    [alg.substr(0, 7)], which is the first seven characters of [alg]:
    'A128GCM' for 'A128GCMKW', 'A192GCM' for 'A192GCMKW' and 'A256GCM' for
    'A256GCMKW'.  [unwrap] is [decrypt] on that identifier with an empty
    AAD; [wrap] is [generateIv] (when no IV is passed) and [encrypt] on
    that identifier. *)
Theorem wrap_unwrap_truncate_alg :
  (forall alg : string,
      substr alg 0 (Some 7%Z)
      = string_of_list_ascii (firstn 7 (list_ascii_of_string alg)))
  /\ substr "A128GCMKW" 0 (Some 7%Z) = "A128GCM"
  /\ substr "A192GCMKW" 0 (Some 7%Z) = "A192GCM"
  /\ substr "A256GCMKW" 0 (Some 7%Z) = "A256GCM"
  /\ (forall (alg : string) (key : K) (encryptedKey iv tag : list byte),
         unwrap alg key encryptedKey iv tag
         = decrypt (substr alg 0 (Some 7%Z)) key encryptedKey iv tag [])
  /\ (forall (alg : string) (key : K) (cek given : list byte),
         wrap alg key cek (Some given)
         = (r <- encrypt (substr alg 0 (Some 7%Z)) cek key given [] ;;
            ret {| encryptedKey := EncryptResult.ciphertext r;
                   iv := base64url given;
                   tag := base64url (EncryptResult.tag r) |}))
  /\ (forall (alg : string) (key : K) (cek : list byte),
         wrap alg key cek None
         = (generated <- generateIv (substr alg 0 (Some 7%Z)) ;;
            r <- encrypt (substr alg 0 (Some 7%Z)) cek key generated [] ;;
            ret {| encryptedKey := EncryptResult.ciphertext r;
                   iv := base64url generated;
                   tag := base64url (EncryptResult.tag r) |})).
Proof.
  split; [intros alg; exact (JSStringFacts.substr_0_firstn alg 7)|].
  repeat split.
Qed.

(** X8: identifiers that agree on their first seven characters are
    wrapped and unwrapped alike: what follows the seventh character never
    reaches the imports. *)
Lemma wrap_unwrap_ignore_suffix (alg1 alg2 : string) :
  firstn 7 (list_ascii_of_string alg1) = firstn 7 (list_ascii_of_string alg2) ->
  (forall key cek iv, wrap alg1 key cek iv = wrap alg2 key cek iv)
  /\ (forall key encryptedKey iv tag,
         unwrap alg1 key encryptedKey iv tag
         = unwrap alg2 key encryptedKey iv tag).
Proof.
  intros Hprefix.
  assert (Htrunc : substr alg1 0 (Some 7%Z) = substr alg2 0 (Some 7%Z)).
  { pose proof (JSStringFacts.substr_0_firstn alg1 7) as H1.
    pose proof (JSStringFacts.substr_0_firstn alg2 7) as H2.
    change (Z.of_nat 7) with 7%Z in H1, H2.
    now rewrite H1, H2, Hprefix. }
  split; intros; unfold wrap, unwrap; now rewrite Htrunc.
Qed.

(** C7: if the outcome of [encrypt] is a function of its arguments (it
    does not depend on the state of the provider), then so is the outcome
    of [wrap] when the IV is passed in: two runs on the same identifier,
    key, CEK and IV settle alike, with the same encrypted key, the same
    encoded IV and the same encoded tag (or the same rejection). *)
Theorem wrap_deterministic_given_iv
    (encrypt_functional :
      forall (a : string) (plaintext : list byte) (k : K)
             (nonce aad : list byte) (w1 w2 : W),
        settle (encrypt a plaintext k nonce aad) w1
        = settle (encrypt a plaintext k nonce aad) w2)
    (alg : string) (key : K) (cek given : list byte) (w1 w2 : W) :
  settle (wrap alg key cek (Some given)) w1
  = settle (wrap alg key cek (Some given)) w2.
Proof.
  unfold settle in *. rewrite !wrap_given_iv.
  specialize
    (encrypt_functional (substr alg 0 (Some 7%Z)) cek key given [] w1 w2).
  settle_call (encrypt (substr alg 0 (Some 7%Z)) cek key given [] w1);
    settle_call (encrypt (substr alg 0 (Some 7%Z)) cek key given [] w2);
    simpl in *; congruence.
Qed.

(** With the IV passed in, [wrap] never calls [generateIv]: replacing the
    generator changes nothing. *)
Lemma wrap_given_iv_draws_no_entropy
    (other : string -> Async W E (list byte))
    (alg : string) (key : K) (cek given : list byte) :
  wrap alg key cek (Some given)
  = @wrap W E K
      {| encrypt := encrypt; decrypt := decrypt;
         generateIv := other; base64url := base64url |}
      alg key cek (Some given).
Proof. reflexivity. Qed.

End WithWrapImports.

End AesGcmKwFacts.

(** ** Sign and verify keys *)

Module GetSignVerifyKeyFacts.

Import JSString GetSignVerifyKey.

Section WithKeyImports.

Context {W CryptoKey : Type} {imports : Imports W CryptoKey}.

(** On a byte array, [getCryptoKey] only looks at the identifier. *)
Lemma getCryptoKey_Uint8Array (alg : string) (bytes : list byte)
    (usage : KeyUsage) :
  getCryptoKey alg (Uint8Array bytes) usage
  = if startsWith alg "HS"
    then
      Normal
        (PromiseOf
           (importKey "raw" bytes
              {| hash :=
                   {| HashAlgorithm.name := "SHA-" ++ substr alg (-3) None |};
                 name := "HMAC" |}
              false [usage]))
    else Throw (TypeError (invalidKeyInput (Uint8Array bytes) ["CryptoKey"])).
Proof.
  unfold getCryptoKey; simpl. now destruct (startsWith alg "HS").
Qed.

(** On a [CryptoKey], it returns the key when the usability check passes
    and throws what the check throws otherwise. *)
Lemma getCryptoKey_CryptoKey (alg : string) (k : CryptoKey) (usage : KeyUsage) :
  getCryptoKey alg (CryptoKeyObject k) usage
  = match checkSigCryptoKey k alg usage with
    | Normal _ => Normal (Key k)
    | Throw e => Throw e
    end.
Proof.
  unfold getCryptoKey; simpl. now destruct (checkSigCryptoKey k alg usage).
Qed.

(** C9: [getCryptoKey] returns or throws on every input, and it returns
    in two cases only: a [CryptoKey] that passes the usability check, and
    a [Uint8Array] with an identifier that starts with 'HS'.  On a
    [Uint8Array] with any other identifier it throws a [TypeError], and so
    it does on a value that is neither a [CryptoKey] nor a
    [Uint8Array]. *)
Theorem getCryptoKey_acceptance
    (alg : string) (key : unknown CryptoKey) (usage : KeyUsage) :
  ((exists result, getCryptoKey alg key usage = Normal result)
   \/ (exists e, getCryptoKey alg key usage = Throw e))
  /\ (forall result : KeyOrPromise W CryptoKey,
         getCryptoKey alg key usage = Normal result
         <-> (exists (k : CryptoKey) (u : unit),
                 key = CryptoKeyObject k
                 /\ checkSigCryptoKey k alg usage = Normal u
                 /\ result = Key k)
             \/ (exists bytes : list byte,
                    key = Uint8Array bytes
                    /\ startsWith alg "HS" = true
                    /\ result
                       = PromiseOf
                           (importKey "raw" bytes
                              {| hash :=
                                   {| HashAlgorithm.name :=
                                        "SHA-" ++ substr alg (-3) None |};
                                 name := "HMAC" |}
                              false [usage])))
  /\ (forall bytes : list byte,
         key = Uint8Array bytes ->
         startsWith alg "HS" = false ->
         getCryptoKey alg key usage
         = Throw (TypeError (invalidKeyInput key ["CryptoKey"])))
  /\ (isCryptoKey key = None ->
      instanceofUint8Array key = None ->
      getCryptoKey alg key usage
      = Throw (TypeError (invalidKeyInput key ["CryptoKey"; "Uint8Array"]))).
Proof.
  split.
  { destruct (getCryptoKey alg key usage) as [result|e];
      [left | right]; eexists; reflexivity. }
  split.
  { intros result. split.
    - destruct key as [| |b|s|bytes|k|n]; try discriminate.
      + rewrite getCryptoKey_Uint8Array.
        destruct (startsWith alg "HS") eqn:Hprefix; [|discriminate].
        intros Heq; inversion Heq. right. exists bytes. now repeat split.
      + rewrite getCryptoKey_CryptoKey.
        destruct (checkSigCryptoKey k alg usage) as [u|e] eqn:Hcheck;
          [|discriminate].
        intros Heq; inversion Heq. left. exists k, u. now repeat split.
    - intros [(k & u & -> & Hcheck & ->)|(bytes & -> & Hprefix & ->)].
      + now rewrite getCryptoKey_CryptoKey, Hcheck.
      + now rewrite getCryptoKey_Uint8Array, Hprefix. }
  split.
  { intros bytes -> Hprefix.
    now rewrite getCryptoKey_Uint8Array, Hprefix. }
  intros Hkey Hbytes. unfold getCryptoKey. now rewrite Hkey, Hbytes.
Qed.

(** C10: for 'HS256', 'HS384' and 'HS512', [getCryptoKey] on a
    [Uint8Array] returns the promise of [importKey] called with the format
    'raw', the bytes, the algorithm 'HMAC' with the hash 'SHA-' followed by
    the last three characters of the identifier ('SHA-256', 'SHA-384',
    'SHA-512'), extractable [false], and the one requested usage. *)
Theorem getCryptoKey_imports_hmac
    (alg : string) (bytes : list byte) (usage : KeyUsage) :
  In alg ["HS256"; "HS384"; "HS512"] ->
  getCryptoKey alg (Uint8Array bytes) usage
  = Normal
      (PromiseOf
         (importKey "raw" bytes
            {| hash :=
                 {| HashAlgorithm.name := "SHA-" ++ substr alg (-3) None |};
               name := "HMAC" |}
            false [usage]))
  /\ substr alg (-3) None
     = string_of_list_ascii
         (skipn (String.length alg - 3) (list_ascii_of_string alg))
  /\ In (alg, "SHA-" ++ substr alg (-3) None)
       [("HS256", "SHA-256"); ("HS384", "SHA-384"); ("HS512", "SHA-512")].
Proof.
  intros [<-|[<-|[<-|[]]]]; (split; [reflexivity|]);
    (split; [reflexivity|]); simpl; tauto.
Qed.

End WithKeyImports.

End GetSignVerifyKeyFacts.

(** ** The functions on the test providers *)

Module TestProviderFacts.

Import JSString TestProvider.

Lemma test_decode_encode (bytes : list byte) :
  test_decode (test_encode bytes) = Some bytes.
Proof.
  unfold test_decode, test_encode.
  now rewrite list_byte_of_string_of_list_byte.
Qed.

Lemma test_encrypt_functional
    (alg : string) (plaintext key iv aad : list byte) (w1 w2 : nat) :
  settle (test_encrypt alg plaintext key iv aad) w1
  = settle (test_encrypt alg plaintext key iv aad) w2.
Proof. unfold test_encrypt. now destruct (supported alg). Qed.

Lemma test_decrypt_inverts_encrypt
    (alg : string) (key plaintext iv : list byte)
    (r : AesGcmKw.EncryptResult.t) (w w' : nat) :
  test_encrypt alg plaintext key iv [] w = (Normal r, w') ->
  forall w2 : nat,
    settle
      (test_decrypt alg key (AesGcmKw.EncryptResult.ciphertext r) iv
         (AesGcmKw.EncryptResult.tag r) [])
      w2
    = Normal plaintext.
Proof.
  unfold test_encrypt, test_decrypt, settle.
  destruct (supported alg); [|discriminate].
  intros Henc w2. inversion Henc; subst; simpl.
  destruct (list_eq_dec byte_eq_dec (key ++ iv ++ []) (key ++ iv ++ []))
    as [_|Hneq]; [|now destruct Hneq].
  simpl. now rewrite rev_involutive.
Qed.

(** An IV that is passed in is used, and the entropy counter stays put. *)
Example wrap_with_iv :
  AesGcmKw.wrap "A256GCMKW" [x01; x02] [x0a; x0b; x0c] (Some [x07; x08]) 5
  = (Normal
       {| AesGcmKw.encryptedKey := [x0c; x0b; x0a];
          AesGcmKw.iv := test_encode [x07; x08];
          AesGcmKw.tag := test_encode [x01; x02; x07; x08] |},
     5).
Proof. reflexivity. Qed.

(** So is an empty one: an empty array is truthy. *)
Example wrap_with_empty_iv :
  AesGcmKw.wrap "A256GCMKW" [x01; x02] [x0a; x0b; x0c] (Some []) 5
  = (Normal
       {| AesGcmKw.encryptedKey := [x0c; x0b; x0a];
          AesGcmKw.iv := test_encode [];
          AesGcmKw.tag := test_encode [x01; x02] |},
     5).
Proof. reflexivity. Qed.

(** Without one, twelve bytes are drawn and the counter moves on. *)
Example wrap_without_iv :
  AesGcmKw.wrap "A256GCMKW" [x01; x02] [x0a; x0b; x0c] None 5
  = (Normal
       {| AesGcmKw.encryptedKey := [x0c; x0b; x0a];
          AesGcmKw.iv := test_encode (repeat x05 12);
          AesGcmKw.tag := test_encode ([x01; x02] ++ repeat x05 12) |},
     6).
Proof. reflexivity. Qed.

(** 'A256KW' is cut to 'A256KW', which the primitives do not know. *)
Example wrap_rejects :
  AesGcmKw.wrap "A256KW" [x01; x02] [x0a; x0b; x0c] (Some [x07; x08]) 5
  = (Throw not_supported, 5).
Proof. reflexivity. Qed.

(** A wrong tag is the generic decryption failure. *)
Example unwrap_rejects :
  settle (AesGcmKw.unwrap "A256GCMKW" [x01; x02] [x0c; x0b; x0a] [x07] [x00]) 0
  = Throw decryption_failed
  /\ Errors.message decryption_failed = "decryption operation failed".
Proof. split; reflexivity. Qed.

(** Two runs without an IV differ: the determinism of [wrap] needs the IV
    to be passed in. *)
Example wrap_without_iv_differs :
  settle (AesGcmKw.wrap "A256GCMKW" [x01; x02] [x0a; x0b; x0c] None) 5
  <> settle (AesGcmKw.wrap "A256GCMKW" [x01; x02] [x0a; x0b; x0c] None) 6.
Proof. vm_compute. discriminate. Qed.

Lemma unwrap_inverts_wrap_witness :
  (forall bytes : list byte, test_decode (test_encode bytes) = Some bytes)
  /\ AesGcmKw.wrap "A256GCMKW" [x01; x02] [x0a; x0b; x0c] (Some [x07; x08]) 5
     = (Normal
          {| AesGcmKw.encryptedKey := [x0c; x0b; x0a];
             AesGcmKw.iv := test_encode [x07; x08];
             AesGcmKw.tag := test_encode [x01; x02; x07; x08] |},
        5)
  /\ exists iv_bytes tag_bytes : list byte,
      test_decode (test_encode [x07; x08]) = Some iv_bytes
      /\ test_decode (test_encode [x01; x02; x07; x08]) = Some tag_bytes
      /\ forall w2 : nat,
          settle
            (AesGcmKw.unwrap "A256GCMKW" [x01; x02] [x0c; x0b; x0a]
               iv_bytes tag_bytes)
            w2
          = Normal [x0a; x0b; x0c].
Proof.
  split; [exact test_decode_encode|]. split; [reflexivity|].
  exact
    (@AesGcmKwFacts.unwrap_inverts_wrap _ _ _ aesgcmkw_imports
       test_decode test_decode_encode test_decrypt_inverts_encrypt
       "A256GCMKW" [x01; x02] [x0a; x0b; x0c] (Some [x07; x08]) 5 5 _
       eq_refl).
Defined.

Lemma wrap_deterministic_given_iv_witness :
  (forall (alg : string) (plaintext key iv aad : list byte) (w1 w2 : nat),
      settle (test_encrypt alg plaintext key iv aad) w1
      = settle (test_encrypt alg plaintext key iv aad) w2)
  /\ settle
       (AesGcmKw.wrap "A256GCMKW" [x01; x02] [x0a; x0b; x0c]
          (Some [x07; x08]))
       0
     = settle
         (AesGcmKw.wrap "A256GCMKW" [x01; x02] [x0a; x0b; x0c]
            (Some [x07; x08]))
         41.
Proof.
  split; [exact test_encrypt_functional|].
  exact
    (@AesGcmKwFacts.wrap_deterministic_given_iv _ _ _ aesgcmkw_imports
       test_encrypt_functional
       "A256GCMKW" [x01; x02] [x0a; x0b; x0c] [x07; x08] 0 41).
Defined.

(** A raw secret with an HMAC identifier is imported. *)
Example getCryptoKey_HS256 :
  match
    GetSignVerifyKey.getCryptoKey "HS256"
      (GetSignVerifyKey.Uint8Array [x01; x02]) GetSignVerifyKey.usage_sign
  with
  | Normal (GetSignVerifyKey.PromiseOf p) => settle p tt
  | _ => Throw (GetSignVerifyKey.TypeError EmptyString)
  end
  = Normal
      {| key_data := [x01; x02];
         key_algorithm :=
           {| GetSignVerifyKey.hash :=
                {| GetSignVerifyKey.HashAlgorithm.name := "SHA-256" |};
              GetSignVerifyKey.name := "HMAC" |};
         key_extractable := false;
         key_usages := [GetSignVerifyKey.usage_sign] |}.
Proof. reflexivity. Qed.

(** With any other identifier it is refused. *)
Example getCryptoKey_RS256 :
  GetSignVerifyKey.getCryptoKey "RS256"
    (GetSignVerifyKey.Uint8Array [x01; x02]) GetSignVerifyKey.usage_sign
  = Throw (GetSignVerifyKey.TypeError "Key must be one of type CryptoKey").
Proof. reflexivity. Qed.

(** A string is neither kind of key. *)
Example getCryptoKey_string :
  GetSignVerifyKey.getCryptoKey "HS256"
    (GetSignVerifyKey.Str "secret") GetSignVerifyKey.usage_sign
  = Throw
      (GetSignVerifyKey.TypeError
         "Key must be one of type CryptoKey, Uint8Array").
Proof. reflexivity. Qed.

Lemma getCryptoKey_acceptance_witness :
  JSString.startsWith "RS256" "HS" = false
  /\ GetSignVerifyKey.getCryptoKey "RS256"
       (GetSignVerifyKey.Uint8Array [x01; x02]) GetSignVerifyKey.usage_sign
     = Throw (GetSignVerifyKey.TypeError "Key must be one of type CryptoKey").
Proof.
  split; [reflexivity|].
  exact
    (proj1
       (proj2
          (proj2
             (@GetSignVerifyKeyFacts.getCryptoKey_acceptance _ _
                get_sign_verify_key_imports "RS256"
                (GetSignVerifyKey.Uint8Array [x01; x02])
                GetSignVerifyKey.usage_sign)))
       [x01; x02] eq_refl eq_refl).
Defined.

Lemma getCryptoKey_imports_hmac_witness :
  In "HS384" ["HS256"; "HS384"; "HS512"]
  /\ GetSignVerifyKey.getCryptoKey "HS384"
       (GetSignVerifyKey.Uint8Array [x01; x02]) GetSignVerifyKey.usage_verify
     = Normal
         (GetSignVerifyKey.PromiseOf
            (test_importKey "raw" [x01; x02]
               {| GetSignVerifyKey.hash :=
                    {| GetSignVerifyKey.HashAlgorithm.name := "SHA-384" |};
                  GetSignVerifyKey.name := "HMAC" |}
               false [GetSignVerifyKey.usage_verify])).
Proof.
  split; [simpl; tauto|].
  exact
    (proj1
       (@GetSignVerifyKeyFacts.getCryptoKey_imports_hmac _ _
          get_sign_verify_key_imports "HS384" [x01; x02]
          GetSignVerifyKey.usage_verify (or_intror (or_introl eq_refl)))).
Defined.

End TestProviderFacts.

(** ** More on the error classes *)

Module ErrorsMoreFacts.

Import Errors ErrorHierarchy.

Lemma class_name_inj (c1 c2 : ErrorClass) :
  class_name c1 = class_name c2 -> c1 = c2.
Proof.
  destruct c1, c2; simpl; intros Heq;
    first [ reflexivity | discriminate Heq ].
Qed.

Section Instances.

Context {KeyLike : Type}.

(** X1: the ten classes without a [message] initializer keep the message
    they are constructed with (the empty string when none is passed); the
    six classes with one discard it: their message is the same whatever
    is passed.  The two lists cover the sixteen classes. *)
Theorem message_kept_or_fixed :
  Forall
    (fun c =>
       forall args : Args,
         message (@construct KeyLike c args)
         = default_param EmptyString (arg_message args))
    [ JOSEError; JWTClaimValidationFailed; JWTExpired; JOSEAlgNotAllowed;
      JOSENotSupported; JWEInvalid; JWSInvalid; JWTInvalid; JWKInvalid;
      JWKSInvalid ]
  /\ Forall
       (fun c =>
          forall args1 args2 : Args,
            message (@construct KeyLike c args1)
            = message (@construct KeyLike c args2))
       [ JWEDecryptionFailed; JWEDecompressionFailed; JWKSNoMatchingKey;
         JWKSMultipleMatchingKeys; JWKSTimeout;
         JWSSignatureVerificationFailed ]
  /\ (forall c : ErrorClass,
         In c
           ([ JOSEError; JWTClaimValidationFailed; JWTExpired;
              JOSEAlgNotAllowed; JOSENotSupported; JWEInvalid; JWSInvalid;
              JWTInvalid; JWKInvalid; JWKSInvalid ]
            ++ [ JWEDecryptionFailed; JWEDecompressionFailed;
                 JWKSNoMatchingKey; JWKSMultipleMatchingKeys; JWKSTimeout;
                 JWSSignatureVerificationFailed ])).
Proof.
  split; [repeat constructor|].
  split; [repeat constructor|].
  intros c; destruct c; simpl; tauto.
Qed.

(** X2: [JWTClaimValidationFailed] and [JWTExpired] always carry a claim
    and a reason: the ones passed, or 'unspecified' for each one that is
    not.  The other fourteen classes never carry either, whatever extra
    arguments they are constructed with. *)
Theorem claim_and_reason_defaults :
  Forall
    (fun c =>
       forall args : Args,
         claim (@construct KeyLike c args)
         = Some (default_param "unspecified" (arg_claim args))
         /\ reason (@construct KeyLike c args)
            = Some (default_param "unspecified" (arg_reason args)))
    [ JWTClaimValidationFailed; JWTExpired ]
  /\ Forall
       (fun c =>
          forall args : Args,
            claim (@construct KeyLike c args) = None
            /\ reason (@construct KeyLike c args) = None)
       [ JOSEError; JOSEAlgNotAllowed; JOSENotSupported; JWEDecryptionFailed;
         JWEDecompressionFailed; JWEInvalid; JWSInvalid; JWTInvalid;
         JWKInvalid; JWKSInvalid; JWKSNoMatchingKey; JWKSMultipleMatchingKeys;
         JWKSTimeout; JWSSignatureVerificationFailed ].
Proof.
  split; repeat constructor.
Qed.

(** X3: the [name] of an instance and its [code] each identify the class
    it was constructed from: two instances have the same name exactly
    when they are of the same class, and likewise for the code. *)
Theorem name_and_code_identify_class
    (c1 c2 : ErrorClass) (args1 args2 : Args) :
  (name (@construct KeyLike c1 args1) = name (@construct KeyLike c2 args2)
   <-> c1 = c2)
  /\ (code (@construct KeyLike c1 args1) = code (@construct KeyLike c2 args2)
      <-> c1 = c2).
Proof.
  rewrite !ErrorsFacts.name_construct, !ErrorsFacts.code_construct.
  split; split; intros Heq; subst; try reflexivity.
  - now apply class_name_inj.
  - now apply ErrorsFacts.static_code_inj.
Qed.

(** X5: for the same arguments a [JWTExpired] and a
    [JWTClaimValidationFailed] carry the same message, claim and reason;
    they differ in code and in name. *)
Theorem JWTExpired_has_the_shape_of_JWTClaimValidationFailed (args : Args) :
  message (@construct KeyLike JWTExpired args)
  = message (@construct KeyLike JWTClaimValidationFailed args)
  /\ claim (@construct KeyLike JWTExpired args)
     = claim (@construct KeyLike JWTClaimValidationFailed args)
  /\ reason (@construct KeyLike JWTExpired args)
     = reason (@construct KeyLike JWTClaimValidationFailed args)
  /\ code (@construct KeyLike JWTExpired args)
     <> code (@construct KeyLike JWTClaimValidationFailed args)
  /\ name (@construct KeyLike JWTExpired args)
     <> name (@construct KeyLike JWTClaimValidationFailed args).
Proof.
  repeat split; simpl; discriminate.
Qed.

(** X6: no constructor assigns the [Symbol.asyncIterator] member: a newly
    constructed instance of any class, [JWKSMultipleMatchingKeys]
    included, has none. *)
Theorem asyncIterator_unassigned_by_constructors
    (c : ErrorClass) (args : Args) :
  asyncIterator (@construct KeyLike c args) = None.
Proof. destruct c; reflexivity. Qed.

End Instances.

(** The chain of a class never needs more links than there are classes. *)
Lemma prototype_chain_cases (c : ErrorClass) :
  prototype_chain (length classes) c
  = match c with
    | JOSEError => [JOSEError]
    | _ => [c; JOSEError]
    end.
Proof. destruct c; reflexivity. Qed.

(** X4: an instance of a class is an [instanceof] that class and of
    [JOSEError], and of no other class.  In particular a [JWTExpired] is
    not an [instanceof] [JWTClaimValidationFailed]. *)
Theorem instanceof_own_class_and_JOSEError (c target : ErrorClass) :
  (instanceof c target = true <-> target = c \/ target = JOSEError)
  /\ instanceof c JOSEError = true
  /\ instanceof JWTExpired JWTClaimValidationFailed = false.
Proof.
  split; [|split; [destruct c; reflexivity | reflexivity]].
  unfold instanceof. rewrite prototype_chain_cases, existsb_exists.
  split.
  - intros (k & Hin & Heq).
    destruct (ErrorClass_eq_dec k target) as [<-|]; [|discriminate].
    destruct c; simpl in Hin; intuition auto.
  - intros Htarget. exists target. split.
    + destruct Htarget as [->| ->]; destruct c; simpl; auto.
    + now destruct (ErrorClass_eq_dec target target).
Qed.

End ErrorsMoreFacts.

(** ** More on AES-GCM key wrapping *)

Module AesGcmKwMoreFacts.

Import JSString AesGcmKw.

Section WithWrapImports.

Context {W E K : Type} {imports : Imports W E K}.

(** X7: [wrap] rejects with [e], leaving the provider in state [w'],
    exactly when no IV was passed and [generateIv] throws [e] (then
    [encrypt] is not called: [w'] is the state [generateIv] left), or
    [encrypt] rejects with [e] for the IV in use.  The rejection is the
    one of the import, unchanged. *)
Theorem wrap_rejects_iff
    (alg : string) (key : K) (cek : list byte) (iv : option (list byte))
    (w w' : W) (e : E) :
  wrap alg key cek iv w = (Throw e, w')
  <-> (iv = None
       /\ generateIv (substr alg 0 (Some 7%Z)) w = (Throw e, w'))
      \/ exists (iv_used : list byte) (w_iv : W),
          match iv with
          | Some given => iv_used = given /\ w_iv = w
          | None =>
              generateIv (substr alg 0 (Some 7%Z)) w = (Normal iv_used, w_iv)
          end
          /\ encrypt (substr alg 0 (Some 7%Z)) cek key iv_used [] w_iv
             = (Throw e, w').
Proof.
  destruct iv as [given|].
  - rewrite AesGcmKwFacts.wrap_given_iv. split.
    + destruct (encrypt (substr alg 0 (Some 7%Z)) cek key given [] w)
        as [[r|e0] w0] eqn:Henc; intros Heq; inversion Heq; subst.
      right. exists given, w. now repeat split.
    + intros [[Hnone _]|(iv_used & w_iv & [-> ->] & Henc)];
        [discriminate|].
      now rewrite Henc.
  - rewrite AesGcmKwFacts.wrap_generated_iv. split.
    + destruct (generateIv (substr alg 0 (Some 7%Z)) w)
        as [[generated|e0] w0] eqn:Hgen.
      * destruct (encrypt (substr alg 0 (Some 7%Z)) cek key generated [] w0)
          as [[r|e1] w1] eqn:Henc; intros Heq; inversion Heq; subst.
        right. exists generated, w0. now split.
      * intros Heq; inversion Heq; subst. left. now split.
    + intros [[_ Hgen]|(iv_used & w_iv & Hgen & Henc)].
      * now rewrite Hgen.
      * now rewrite Hgen, Henc.
Qed.

End WithWrapImports.

Import TestProvider.

Lemma wrap_unwrap_ignore_suffix_witness :
  firstn 7 (list_ascii_of_string "A256GCMKW")
  = firstn 7 (list_ascii_of_string "A256GCM")
  /\ (forall key cek iv,
         @wrap _ _ _ aesgcmkw_imports "A256GCMKW" key cek iv
         = wrap "A256GCM" key cek iv)
  /\ (forall key encryptedKey iv tag,
         @unwrap _ _ _ aesgcmkw_imports "A256GCMKW" key encryptedKey iv tag
         = unwrap "A256GCM" key encryptedKey iv tag).
Proof.
  split; [reflexivity|].
  exact
    (@AesGcmKwFacts.wrap_unwrap_ignore_suffix _ _ _ aesgcmkw_imports
       "A256GCMKW" "A256GCM" eq_refl).
Defined.

End AesGcmKwMoreFacts.

(** ** More on sign and verify keys *)

Module GetSignVerifyKeyMoreFacts.

Import JSString GetSignVerifyKey.

Section WithKeyImports.

Context {W CryptoKey : Type} {imports : Imports W CryptoKey}.

(** X9: every identifier that starts with 'HS' is accepted for a
    [Uint8Array], of any length, the empty one included: the bytes go to
    [importKey] with the hash 'SHA-' followed by the last three characters
    of the identifier (by the whole identifier when it has fewer than
    three), whether or not these name a hash. *)
Theorem getCryptoKey_imports_for_every_HS
    (alg : string) (bytes : list byte) (usage : KeyUsage) :
  startsWith alg "HS" = true ->
  getCryptoKey alg (Uint8Array bytes) usage
  = Normal
      (PromiseOf
         (importKey "raw" bytes
            {| hash :=
                 {| HashAlgorithm.name :=
                      "SHA-"
                      ++ string_of_list_ascii
                           (skipn (String.length alg - 3)
                              (list_ascii_of_string alg)) |};
               name := "HMAC" |}
            false [usage])).
Proof.
  intros Hprefix.
  rewrite GetSignVerifyKeyFacts.getCryptoKey_Uint8Array, Hprefix.
  change (-3)%Z with (- Z.of_nat 3)%Z.
  rewrite JSStringFacts.substr_last by lia. reflexivity.
Qed.

(** X10: [getCryptoKey] throws in three cases only: on a [CryptoKey],
    what the usability check throws, unchanged; on a [Uint8Array] with an
    identifier that does not start with 'HS', the [TypeError] that names
    'CryptoKey' as the one accepted type; on any other value, the
    [TypeError] that names 'CryptoKey' and 'Uint8Array'. *)
Theorem getCryptoKey_throws_iff
    (alg : string) (key : unknown CryptoKey) (usage : KeyUsage) (e : Thrown) :
  getCryptoKey alg key usage = Throw e
  <-> (exists k : CryptoKey,
          key = CryptoKeyObject k /\ checkSigCryptoKey k alg usage = Throw e)
      \/ (exists bytes : list byte,
             key = Uint8Array bytes
             /\ startsWith alg "HS" = false
             /\ e = TypeError (invalidKeyInput key ["CryptoKey"]))
      \/ (isCryptoKey key = None
          /\ instanceofUint8Array key = None
          /\ e = TypeError (invalidKeyInput key ["CryptoKey"; "Uint8Array"])).
Proof.
  split.
  - destruct key as [| |b|s|bytes|k|n];
      try (intros Heq; inversion Heq; right; right; now repeat split).
    + rewrite GetSignVerifyKeyFacts.getCryptoKey_Uint8Array.
      destruct (startsWith alg "HS") eqn:Hprefix; [discriminate|].
      intros Heq; inversion Heq. right; left. exists bytes. now repeat split.
    + rewrite GetSignVerifyKeyFacts.getCryptoKey_CryptoKey.
      destruct (checkSigCryptoKey k alg usage) as [u|e0] eqn:Hcheck;
        [discriminate|].
      intros Heq; inversion Heq; subst. left. exists k. now split.
  - intros [(k & -> & Hcheck)|[(bytes & -> & Hprefix & ->)|(Hk & Hb & ->)]].
    + now rewrite GetSignVerifyKeyFacts.getCryptoKey_CryptoKey, Hcheck.
    + now rewrite GetSignVerifyKeyFacts.getCryptoKey_Uint8Array, Hprefix.
    + unfold getCryptoKey. now rewrite Hk, Hb.
Qed.

End WithKeyImports.

Import TestProvider.

Lemma getCryptoKey_imports_for_every_HS_witness :
  startsWith "HS" "HS" = true
  /\ @getCryptoKey _ _ get_sign_verify_key_imports "HS" (Uint8Array [])
       usage_sign
     = Normal
         (PromiseOf
            (test_importKey "raw" []
               {| hash := {| HashAlgorithm.name := "SHA-HS" |};
                  name := "HMAC" |}
               false [usage_sign])).
Proof.
  split; [reflexivity|].
  exact
    (@getCryptoKey_imports_for_every_HS _ _ get_sign_verify_key_imports
       "HS" [] usage_sign eq_refl).
Defined.

End GetSignVerifyKeyMoreFacts.
